(** * The in-memory CRUD endpoints of examples/fastapi-api/main.py

    The module keeps three process-local lists ([users_db], [products_db],
    [orders_db]) and exposes handlers that scan and mutate them.  Handlers
    are embedded as state-passing functions over the module globals;
    a raised Python exception is an explicit [Raise] outcome. *)

From Stdlib Require Import ZArith Floats.SpecFloat.
From stdpp Require Import base option list list_numbers sorting gmap fin_maps
  strings pretty.

Local Open Scope string_scope.
Local Open Scope Z_scope.

(** ** Python values found in record fields *)

(** The scalar (and list-of-int) values a pydantic model of this module
    can put in a field: [None], [bool], [int], [float], [str], [List[int]]. *)
Inductive value : Type :=
  | VNone
  | VBool (b : bool)
  | VInt (z : Z)
  | VFloat (f : spec_float)
  | VStr (s : string)
  | VIntList (l : list Z).

(** A record is a Python [dict] with string keys. *)
Abbreviation record := (gmap string value).

(** [v == n] for an [int] right operand [n], as Python evaluates it:
    [bool] is a subclass of [int], a finite [float] is compared exactly,
    every other type compares unequal. *)
Definition py_eq_int (v : value) (n : Z) : bool :=
  match v with
  | VInt z => z =? n
  | VBool b => (if b then 1 else 0) =? n
  | VFloat (S754_zero _) => 0 =? n
  | VFloat (S754_finite s m e) =>
      let sm := if s then Z.neg m else Z.pos m in
      if 0 <=? e then sm * 2 ^ e =? n else sm =? n * 2 ^ (- e)
  | VFloat _ => false
  | VNone | VStr _ | VIntList _ => false
  end.

(** ** Exceptions and outcomes *)

Inductive exn : Type :=
  | HTTPException (status_code : Z) (detail : string)
  | KeyError (key : string)
  | IndexError (msg : string)
  | TypeError (msg : string).

Inductive result (A : Type) : Type :=
  | Return (a : A)
  | Raise (e : exn).
Arguments Return {A} a.
Arguments Raise {A} e.

(** ** Pydantic models and their [.dict()] *)

Record User : Type := mkUser
  { User_id : option Z; User_name : string; User_email : string }.

Record Product : Type := mkProduct
  { Product_id : option Z; Product_name : string; Product_price : spec_float }.

Record Order : Type := mkOrder
  { Order_id : option Z; Order_user_id : Z; Order_items : list Z;
    Order_total : spec_float }.

(** [Optional[int]] field: [None] or an [int]. *)
Definition optional_int (o : option Z) : value :=
  match o with Some z => VInt z | None => VNone end.

Definition User_dict (user : User) : record :=
  list_to_map
    [("id", optional_int (User_id user));
     ("name", VStr (User_name user));
     ("email", VStr (User_email user))].

Definition Product_dict (product : Product) : record :=
  list_to_map
    [("id", optional_int (Product_id product));
     ("name", VStr (Product_name product));
     ("price", VFloat (Product_price product))].

Definition Order_dict (order : Order) : record :=
  list_to_map
    [("id", optional_int (Order_id order));
     ("user_id", VInt (Order_user_id order));
     ("items", VIntList (Order_items order));
     ("total", VFloat (Order_total order))].

(** ** Module globals *)

(** What a [*_db] global can be bound to: the list the module creates, or
    [None] (the "absent store" the tests of [list_users] speak of). *)
Inductive pyobj : Type :=
  | PyNone
  | PyList (l : list record).

Record globals : Type := mkGlobals
  { users_db : pyobj; products_db : pyobj; orders_db : pyobj }.

(** [users_db = []], [products_db = []], [orders_db = []]. *)
Definition module_init : globals :=
  {| users_db := PyList []; products_db := PyList []; orders_db := PyList [] |}.

Definition set_users_db (v : pyobj) (g : globals) : globals :=
  {| users_db := v; products_db := products_db g; orders_db := orders_db g |}.
Definition set_products_db (v : pyobj) (g : globals) : globals :=
  {| users_db := users_db g; products_db := v; orders_db := orders_db g |}.
Definition set_orders_db (v : pyobj) (g : globals) : globals :=
  {| users_db := users_db g; products_db := products_db g; orders_db := v |}.

(** A handler reads and mutates the globals and returns or raises. *)
Definition handler (A : Type) : Type := globals → result A * globals.

Definition not_iterable : exn := TypeError "'NoneType' object is not iterable".
Definition no_len : exn := TypeError "object of type 'NoneType' has no len()".

(** ** The scanning loop

    [for i, r in enumerate(db): if r["id"] == id: <found at i>], with
    [None] when the loop falls through.  [r["id"]] raises [KeyError]
    when the key is missing. *)
Fixpoint scan (i : nat) (db : list record) (id : Z)
  : result (option (nat * record)) :=
  match db with
  | [] => Return None
  | r :: rest =>
      match r !! "id" with
      | None => Raise (KeyError "id")
      | Some v =>
          if py_eq_int v id then Return (Some (i, r))
          else scan (S i) rest id
      end
  end.

(** ** User endpoints *)

Definition list_users : handler pyobj :=
  λ g, (Return (users_db g), g).

Definition get_user (user_id : Z) : handler record :=
  λ g,
    match users_db g with
    | PyNone => (Raise not_iterable, g)
    | PyList db =>
        match scan 0 db user_id with
        | Raise e => (Raise e, g)
        | Return (Some (_, user)) => (Return user, g)
        | Return None => (Raise (HTTPException 404 "User not found"), g)
        end
    end.

Definition create_user (user : User) : handler record :=
  λ g,
    let user_dict := User_dict user in
    match users_db g with
    | PyNone => (Raise no_len, g)
    | PyList db =>
        let user_dict :=
          <["id" := VInt (Z.of_nat (length db) + 1)]> user_dict in
        (Return user_dict, set_users_db (PyList (db ++ [user_dict])) g)
    end.

Definition update_user (user_id : Z) (user : User) : handler record :=
  λ g,
    match users_db g with
    | PyNone => (Raise not_iterable, g)
    | PyList db =>
        match scan 0 db user_id with
        | Raise e => (Raise e, g)
        | Return (Some (i, _)) =>
            let db' := <[i := <["id" := VInt user_id]> (User_dict user)]> db in
            let g' := set_users_db (PyList db') g in
            match db' !! i with
            | Some r => (Return r, g')
            | None => (Raise (IndexError "list index out of range"), g')
            end
        | Return None => (Raise (HTTPException 404 "User not found"), g)
        end
    end.

Definition delete_user (user_id : Z) : handler record :=
  λ g,
    match users_db g with
    | PyNone => (Raise not_iterable, g)
    | PyList db =>
        match scan 0 db user_id with
        | Raise e => (Raise e, g)
        | Return (Some (i, _)) =>
            (Return {["deleted" := VBool true]},
             set_users_db (PyList (delete i db)) g)
        | Return None => (Raise (HTTPException 404 "User not found"), g)
        end
    end.

(** ** Product endpoints *)

Definition list_products : handler pyobj :=
  λ g, (Return (products_db g), g).

Definition get_product (product_id : Z) : handler record :=
  λ g,
    match products_db g with
    | PyNone => (Raise not_iterable, g)
    | PyList db =>
        match scan 0 db product_id with
        | Raise e => (Raise e, g)
        | Return (Some (_, product)) => (Return product, g)
        | Return None => (Raise (HTTPException 404 "Product not found"), g)
        end
    end.

Definition create_product (product : Product) : handler record :=
  λ g,
    let product_dict := Product_dict product in
    match products_db g with
    | PyNone => (Raise no_len, g)
    | PyList db =>
        let product_dict :=
          <["id" := VInt (Z.of_nat (length db) + 1)]> product_dict in
        (Return product_dict, set_products_db (PyList (db ++ [product_dict])) g)
    end.

(** ** Order endpoints ([async def] without any [await]: each coroutine
    runs to completion once scheduled) *)

Definition list_orders : handler pyobj :=
  λ g, (Return (orders_db g), g).

Definition create_order (order : Order) : handler record :=
  λ g,
    let order_dict := Order_dict order in
    match orders_db g with
    | PyNone => (Raise no_len, g)
    | PyList db =>
        let order_dict :=
          <["id" := VInt (Z.of_nat (length db) + 1)]> order_dict in
        (Return order_dict, set_orders_db (PyList (db ++ [order_dict])) g)
    end.

Definition get_order (order_id : Z) : handler record :=
  λ g,
    match orders_db g with
    | PyNone => (Raise not_iterable, g)
    | PyList db =>
        match scan 0 db order_id with
        | Raise e => (Raise e, g)
        | Return (Some (_, order)) => (Return order, g)
        | Return None => (Raise (HTTPException 404 "Order not found"), g)
        end
    end.

(** ** Calling convention

    [def list_users():] declares no parameter; Python rejects a call that
    passes positional arguments before the body runs. *)
Definition call_no_params {A : Type} (fname : string) (body : handler A)
    (args : list pyobj) : handler A :=
  λ g,
    match args with
    | [] => body g
    | _ =>
        (Raise (TypeError
           (fname +:+ "() takes 0 positional arguments but "
              +:+ pretty (length args)
              +:+ (if decide (length args = 1%nat) then " was given"
                   else " were given"))), g)
    end.

(** ** Requests against the users repository *)

Inductive user_request : Type :=
  | ListUsers
  | GetUser (user_id : Z)
  | CreateUser (user : User)
  | UpdateUser (user_id : Z) (user : User)
  | DeleteUser (user_id : Z).

Inductive body : Type :=
  | BodyList (l : pyobj)
  | BodyDict (d : record).

Definition with_body {A : Type} (f : A → body) (out : result A * globals)
  : result body * globals :=
  match out with
  | (Return a, g) => (Return (f a), g)
  | (Raise e, g) => (Raise e, g)
  end.

(** The route table of the users endpoints. *)
Definition serve (rq : user_request) : handler body :=
  λ g,
    match rq with
    | ListUsers => with_body BodyList (list_users g)
    | GetUser user_id => with_body BodyDict (get_user user_id g)
    | CreateUser user => with_body BodyDict (create_user user g)
    | UpdateUser user_id user => with_body BodyDict (update_user user_id user g)
    | DeleteUser user_id => with_body BodyDict (delete_user user_id g)
    end.

(** Serving a sequence of requests one after the other, keeping every
    response. *)
Fixpoint serve_all (rqs : list user_request) (g : globals)
  : list (result body) * globals :=
  match rqs with
  | [] => ([], g)
  | rq :: rqs' =>
      let '(out, g1) := serve rq g in
      let '(outs, g2) := serve_all rqs' g1 in
      (out :: outs, g2)
  end.

(** ** Observations used in the statements *)

(** [r["id"] == id] holds (and the key is there). *)
Definition matches (id : Z) (r : record) : bool :=
  match r !! "id" with
  | Some v => py_eq_int v id
  | None => false
  end.

(** Every stored record carries an ["id"] key, as every record written by
    a create or update handler does. *)
Definition keyed (db : list record) : Prop :=
  Forall (λ r : record, is_Some (r !! "id")) db.

(** No stored record has the id / some stored record has the id. *)
Definition absent (id : Z) (db : list record) : Prop :=
  Forall (λ r : record, matches id r = false) db.
Definition present (id : Z) (db : list record) : Prop :=
  Exists (λ r : record, matches id r = true) db.

(** Every stored record has an [int] under ["id"]. *)
Definition int_ids (db : list record) : Prop :=
  Forall (λ r : record, ∃ z : Z, r !! "id" = Some (VInt z)) db.

(** The ["id"] fields of the stored records, in order. *)
Definition stored_ids (db : list record) : list (option value) :=
  (λ r : record, r !! "id") <$> db.

(** The records of a store ([None] holds none). *)
Definition records_of (s : pyobj) : list record :=
  match s with PyList l => l | PyNone => [] end.

(** The outcome is the 404 "not found" failure. *)
Definition not_found {A : Type} (out : result A * globals) : Prop :=
  ∃ detail, out.1 = Raise (HTTPException 404 detail).

(** The id a successful create handed out. *)
Definition assigned_id (out : result body) : option value :=
  match out with
  | Return (BodyDict r) => r !! "id"
  | _ => None
  end.

(** [needle] occurs in [hay] as a contiguous substring. *)
Fixpoint occurs_in (needle hay : string) : bool :=
  if String.prefix needle hay then true
  else match hay with
       | EmptyString => false
       | String _ hay' => occurs_in needle hay'
       end.

(** A message identifies an id when the id's decimal numeral occurs in it. *)
Definition mentions_id (msg : string) (id : Z) : bool :=
  occurs_in (pretty id) msg.

(** What a create handler must have done on a store holding [db], given
    the fields of the posted model: it returned a record [r] that is now
    the last element of the store, whose ["id"] is the old count plus one
    and whose other fields are the posted ones. *)
Definition create_post (fields : record) (db : list record)
    (out : result record) (store' : pyobj) : Prop :=
  ∃ r : record,
    out = Return r ∧ store' = PyList (db ++ [r]) ∧
    r !! "id" = Some (VInt (Z.of_nat (length db) + 1)) ∧
    ∀ k : string, k ≠ "id" → r !! k = fields !! k.

(** A request that is not a delete. *)
Definition is_delete (rq : user_request) : bool :=
  match rq with DeleteUser _ => true | _ => false end.

(** ** Concrete inputs *)

Definition alice : User := mkUser None "Alice" "a@x.com".
Definition bob : User := mkUser (Some 99) "Bob" "b@x.com".
Definition carol : User := mkUser None "Carol" "c@x.com".

Definition widget : Product :=
  mkProduct None "Widget" (S754_finite false 5 (-1)).
Definition basket : Order := mkOrder (Some 7) 1 [1; 1] (S754_finite false 5 0).

(** Two creates, a delete of the first record, one more create. *)
Definition reuse_trace : list user_request :=
  [CreateUser alice; CreateUser bob; DeleteUser 1; CreateUser carol].

(** The users store after [reuse_trace]. *)
Definition reuse_state : globals := (serve_all reuse_trace module_init).2.

(** The users store after two creates and the delete of the first record. *)
Definition gap_state : globals :=
  (serve_all [CreateUser alice; CreateUser bob; DeleteUser 1] module_init).2.

(** A users store holding Alice (id 1) and Bob (id 2). *)
Definition two_users : list record :=
  [<["id" := VInt 1]> (User_dict alice); <["id" := VInt 2]> (User_dict bob)].

Definition two_users_state : globals :=
  {| users_db := PyList two_users; products_db := PyList [];
     orders_db := PyList [] |}.

(** The ids of the stored records are [1, 2, ..., len(db)], in order. *)
Definition sequential (db : list record) : Prop :=
  stored_ids db
  = (λ z : Z, Some (VInt z)) <$> seqZ 1 (Z.of_nat (length db)).

(** The users store bound to [None]. *)
Definition absent_store_state : globals := set_users_db PyNone module_init.

(** The state after [reuse_trace] and a delete of id 2. *)
Definition after_delete_state : globals := (delete_user 2 reuse_state).2.

(** ** The health check and the whole route table *)

(** [return {"status": "ok"}]. *)
Definition health_check : handler record :=
  λ g, (Return {["status" := VStr "ok"]}, g).

(** One constructor per route of the application. *)
Inductive request : Type :=
  | HealthCheck
  | Users (rq : user_request)
  | ListProducts
  | GetProduct (product_id : Z)
  | CreateProduct (product : Product)
  | ListOrders
  | CreateOrder (order : Order)
  | GetOrder (order_id : Z).

Definition handle (rq : request) : handler body :=
  λ g,
    match rq with
    | HealthCheck => with_body BodyDict (health_check g)
    | Users rq' => serve rq' g
    | ListProducts => with_body BodyList (list_products g)
    | GetProduct product_id => with_body BodyDict (get_product product_id g)
    | CreateProduct product => with_body BodyDict (create_product product g)
    | ListOrders => with_body BodyList (list_orders g)
    | CreateOrder order => with_body BodyDict (create_order order g)
    | GetOrder order_id => with_body BodyDict (get_order order_id g)
    end.

Fixpoint handle_all (rqs : list request) (g : globals)
  : list (result body) * globals :=
  match rqs with
  | [] => ([], g)
  | rq :: rqs' =>
      let '(out, g1) := handle rq g in
      let '(outs, g2) := handle_all rqs' g1 in
      (out :: outs, g2)
  end.

(** The three stores, and the store a route assigns to or mutates (none
    for the routes that only read). *)
Inductive kind : Type := KUser | KProduct | KOrder.

Definition store (k : kind) (g : globals) : pyobj :=
  match k with
  | KUser => users_db g
  | KProduct => products_db g
  | KOrder => orders_db g
  end.

Definition writes (rq : request) : option kind :=
  match rq with
  | Users (CreateUser _) | Users (UpdateUser _ _) | Users (DeleteUser _) =>
      Some KUser
  | CreateProduct _ => Some KProduct
  | CreateOrder _ => Some KOrder
  | _ => None
  end.

(** The detail strings of the three 404 failures. *)
Definition not_found_details : list string :=
  ["User not found"; "Product not found"; "Order not found"].

(** A response is a normal return or one of the 404 failures. *)
Definition returns_or_404 (out : result body) : Prop :=
  match out with
  | Return _ => True
  | Raise e => ∃ detail, detail ∈ not_found_details ∧
                         e = HTTPException 404 detail
  end.

(** What a scan found, without the index. *)
Definition found (out : result (option (nat * record)))
  : result (option record) :=
  match out with
  | Return (Some (_, r)) => Return (Some r)
  | Return None => Return None
  | Raise e => Raise e
  end.

(** [get] reads a store holding [db] by position: an id between 1 and
    [len(db)] returns the element at index [id - 1], any other id raises
    the 404 failure with [detail]; the globals stay as they are. *)
Definition reads_by_position (get : Z → handler record) (detail : string)
    (g : globals) (db : list record) : Prop :=
  ∀ id : Z,
    (1 ≤ id ≤ Z.of_nat (length db) →
     ∃ r, db !! Z.to_nat (id - 1) = Some r ∧ get id g = (Return r, g)) ∧
    (¬ (1 ≤ id ≤ Z.of_nat (length db)) →
     get id g = (Raise (HTTPException 404 detail), g)).

(** [get] returned a record of [db] that has the id and is the first one
    to have it. *)
Definition first_match (id : Z) (db : list record) (r : record) : Prop :=
  ∃ i : nat, db !! i = Some r ∧ matches id r = true ∧ absent id (take i db).

(** The id occurs in at most one position of the store. *)
Definition occurs_once (id : Z) (db : list record) : Prop :=
  ∀ (i j : nat) (r r' : record),
    db !! i = Some r → db !! j = Some r' →
    matches id r = true → matches id r' = true → i = j.

(** The number of stored users a request must leave behind. *)
Definition expected_count (rq : user_request) (out : result body) (n : nat)
  : nat :=
  match rq, out with
  | CreateUser _, Return _ => S n
  | DeleteUser _, Return _ => pred n
  | _, _ => n
  end.

(** The record the [i]-th create of a run stores when [n] records were
    there before. *)
Definition stored_user (n : nat) (i : nat) (user : User) : record :=
  <["id" := VInt (Z.of_nat n + 1 + Z.of_nat i)]> (User_dict user).

(** Every store is a list, the users carry [int] ids, and the ids of
    the products and of the orders are [1 .. len]. *)
Definition stores_ok (g : globals) : Prop :=
  ∃ u p o : list record,
    users_db g = PyList u ∧ int_ids u ∧
    products_db g = PyList p ∧ sequential p ∧
    orders_db g = PyList o ∧ sequential o.

(** The response of a get handler, from what its scan found. *)
Definition answer (detail : string) (f : result (option record))
  : result record :=
  match f with
  | Return (Some r) => Return r
  | Return None => Raise (HTTPException 404 detail)
  | Raise e => Raise e
  end.

(** ** The test module main_test.py *)

(** [a == b] on field values of two distinct objects: numbers ([bool],
    [int], [float]) compare by value across types, [nan] equals nothing,
    the infinities equal themselves, other types compare within the type. *)
Definition dyadic (v : value) : option (Z * Z) :=
  match v with
  | VBool b => Some (if b then 1 else 0, 0)
  | VInt z => Some (z, 0)
  | VFloat (S754_zero _) => Some (0, 0)
  | VFloat (S754_finite s m e) => Some (if s then Z.neg m else Z.pos m, e)
  | _ => None
  end.

Definition py_eq (a b : value) : bool :=
  match a, b with
  | VNone, VNone => true
  | VStr s, VStr t => bool_decide (s = t)
  | VIntList l, VIntList k => bool_decide (l = k)
  | VFloat (S754_infinity s), VFloat (S754_infinity t) => bool_decide (s = t)
  | _, _ =>
      match dyadic a, dyadic b with
      | Some (m1, e1), Some (m2, e2) =>
          if e1 <=? e2 then m1 =? m2 * 2 ^ (e2 - e1)
          else m1 * 2 ^ (e1 - e2) =? m2
      | _, _ => false
      end
  end.

(** [d1 == d2] on dicts: the same keys, with equal values. *)
Definition py_eq_dict (d1 d2 : record) : bool :=
  bool_decide (dom d1 = dom d2) &&
  forallb (λ kv : string * value,
             match d2 !! kv.1 with
             | Some w => py_eq kv.2 w
             | None => false
             end) (map_to_list d1).

(** [l1 == l2] on lists of dicts. *)
Fixpoint py_eq_dicts (l1 l2 : list record) : bool :=
  match l1, l2 with
  | [], [] => true
  | d1 :: l1', d2 :: l2' => py_eq_dict d1 d2 && py_eq_dicts l1' l2'
  | _, _ => false
  end.

(** [result == expected] where [expected] is a list literal. *)
Definition py_eq_store (result : pyobj) (expected : list record) : bool :=
  match result with
  | PyList l => py_eq_dicts l expected
  | PyNone => false
  end.

(** How pytest reports a test function: it ran through, an [assert]
    failed, or an exception escaped. *)
Inductive verdict : Type :=
  | Passed
  | AssertionFailed
  | Errored (e : exn).

(** [result = <call>; assert <check result>]. *)
Definition act_then_assert {A : Type} (act : handler A) (check : A → bool)
  : globals → verdict * globals :=
  λ g,
    match act g with
    | (Return result, g') =>
        (if check result then Passed else AssertionFailed, g')
    | (Raise e, g') => (Errored e, g')
    end.

(** TestHealthCheck *)
Definition test_function_returns_expected_status_dictionary
  : globals → verdict * globals :=
  act_then_assert (call_no_params "health_check" health_check [])
    (λ result, py_eq_dict result {["status" := VStr "ok"]}).

Definition test_function_handles_null_input_gracefully
  : globals → verdict * globals :=
  act_then_assert (call_no_params "health_check" health_check [])
    (λ result, py_eq_dict result {["status" := VStr "ok"]}).

(** TestListUsers: each test binds a local [users_db] and passes it to
    [list_users]. *)
Definition alice_and_bob_literal : list record :=
  [ {["id" := VInt 1; "name" := VStr "Alice"]};
    {["id" := VInt 2; "name" := VStr "Bob"]} ].

Definition test_returns_all_users_when_there_are_multiple_users_in_the_database
  : globals → verdict * globals :=
  let users_db := PyList alice_and_bob_literal in
  act_then_assert (call_no_params "list_users" list_users [users_db])
    (λ result, py_eq_store result alice_and_bob_literal).

Definition test_returns_an_empty_list_when_there_are_no_users_in_the_database
  : globals → verdict * globals :=
  let users_db := PyList [] in
  act_then_assert (call_no_params "list_users" list_users [users_db])
    (λ result, py_eq_store result []).

Definition test_returns_an_empty_list_when_the_database_is_null
  : globals → verdict * globals :=
  let users_db := PyNone in
  act_then_assert (call_no_params "list_users" list_users [users_db])
    (λ result, py_eq_store result []).

(** The five tests, in file order. *)
Definition main_test : list (globals → verdict * globals) :=
  [ test_function_returns_expected_status_dictionary;
    test_function_handles_null_input_gracefully;
    test_returns_all_users_when_there_are_multiple_users_in_the_database;
    test_returns_an_empty_list_when_there_are_no_users_in_the_database;
    test_returns_an_empty_list_when_the_database_is_null ].

(** ** More concrete inputs *)

Definition gadget : Product :=
  mkProduct (Some 40) "Gadget" (S754_finite false 3 0).

(** A mixed run over the three stores. *)
Definition mixed_trace : list request :=
  [ Users (CreateUser alice); CreateProduct widget; CreateOrder basket;
    Users (CreateUser bob); Users (DeleteUser 1); CreateProduct gadget;
    GetProduct 2; GetOrder 9; HealthCheck ].

(** The module state after [mixed_trace]. *)
Definition mixed_state : globals := (handle_all mixed_trace module_init).2.

(** * Properties of the scanning loop *)

Section Scan.
Implicit Types (db : list record) (r : record) (id : Z) (i j : nat).

Lemma scan_raises_only_KeyError i db id e :
  scan i db id = Raise e → e = KeyError "id".
Proof.
  revert i; induction db as [|r db IH]; intros i; simpl; [done|].
  destruct (r !! "id") as [v|]; [|congruence].
  destruct (py_eq_int v id); [done|]. apply IH.
Qed.

Lemma scan_skip i db1 db2 id :
  keyed db1 → Forall (λ r, matches id r = false) db1 →
  scan i (db1 ++ db2) id = scan (i + length db1) db2 id.
Proof.
  revert i; induction db1 as [|r db1 IH]; intros i Hk Hm; simpl.
  { by rewrite Nat.add_0_r. }
  apply Forall_cons in Hk as [[v Hv] Hk]. apply Forall_cons in Hm as [Hr Hm].
  unfold matches in Hr. rewrite Hv in Hr |- *. rewrite Hr.
  rewrite IH by done. f_equal. lia.
Qed.

Lemma scan_hit i r db id :
  matches id r = true → scan i (r :: db) id = Return (Some (i, r)).
Proof.
  unfold matches; simpl. destruct (r !! "id") as [v|]; [|done].
  by intros ->.
Qed.

(** A hit at index [j] splits the list at the first matching record. *)
Lemma scan_found i db id j r :
  scan i db id = Return (Some (j, r)) →
  ∃ k : nat, j = (i + k)%nat ∧ db !! k = Some r ∧ matches id r = true ∧
    keyed (take k db) ∧ Forall (λ r', matches id r' = false) (take k db).
Proof.
  revert i; induction db as [|r0 db IH]; intros i; simpl; [done|].
  destruct (r0 !! "id") as [v|] eqn:Hv; [|done].
  destruct (py_eq_int v id) eqn:Heq.
  - intros [= <- <-]. exists 0%nat. unfold matches, keyed. rewrite Hv.
    repeat split; auto with lia.
  - intros (k & -> & Hk & Hm & Hkey & Hno)%IH.
    exists (S k). unfold keyed in *; simpl. split_and!; auto with lia.
    constructor; [|done]. unfold matches. by rewrite Hv.
Qed.

Lemma scan_none i db id :
  scan i db id = Return None →
  keyed db ∧ Forall (λ r, matches id r = false) db.
Proof.
  revert i; induction db as [|r0 db IH]; intros i; simpl.
  { intros _. split; constructor. }
  destruct (r0 !! "id") as [v|] eqn:Hv; [|done].
  destruct (py_eq_int v id) eqn:Heq; [done|].
  intros [Hk Hm]%IH. split; constructor; eauto.
  unfold matches. by rewrite Hv.
Qed.

Lemma scan_no_match i db id :
  keyed db → Forall (λ r, matches id r = false) db →
  scan i db id = Return None.
Proof.
  intros Hk Hm. rewrite <- (app_nil_r db). by rewrite scan_skip.
Qed.

Lemma scan_keyed i db id :
  keyed db → ∃ o, scan i db id = Return o.
Proof.
  revert i; induction db as [|r db IH]; intros i Hk; simpl; [eauto|].
  apply Forall_cons in Hk as [[v ->] Hk].
  destruct (py_eq_int v id); eauto.
Qed.

Lemma scan_first_match i db id :
  keyed db → Exists (λ r, matches id r = true) db →
  ∃ j r, scan i db id = Return (Some (j, r)).
Proof.
  intros Hk Hex. destruct (scan_keyed i db id Hk) as [[[j r]|] Hs]; [eauto|].
  apply scan_none in Hs as [_ Hno]. exfalso.
  apply Exists_exists in Hex as (r & Hin & Hr).
  rewrite Forall_forall in Hno. specialize (Hno r Hin). congruence.
Qed.
End Scan.

(** * The create handlers *)

Section Create.
Implicit Types (db : list record) (g : globals).

Lemma create_post_insert (fields : record) db :
  let r := <["id" := VInt (Z.of_nat (length db) + 1)]> fields in
  create_post fields db (Return r) (PyList (db ++ [r])).
Proof.
  intros r. exists r. split_and!; [done|done|apply lookup_insert_eq|].
  intros k Hk. by apply lookup_insert_ne.
Qed.

(** C1. On a store holding [db], each create handler ([create_user],
    [create_product], [create_order]) returns without raising; the
    returned record is appended as the last element of its own store,
    its ["id"] is [len(db) + 1] whatever id the posted model carried,
    its other fields are the posted ones, and the two other stores are
    left as they were. *)
Theorem create_assigns_count_plus_one
    db (s1 s2 : pyobj) (user : User) (product : Product) (order : Order) :
  (let out := create_user user (mkGlobals (PyList db) s1 s2) in
   create_post (User_dict user) db out.1 (users_db out.2) ∧
   products_db out.2 = s1 ∧ orders_db out.2 = s2) ∧
  (let out := create_product product (mkGlobals s1 (PyList db) s2) in
   create_post (Product_dict product) db out.1 (products_db out.2) ∧
   users_db out.2 = s1 ∧ orders_db out.2 = s2) ∧
  (let out := create_order order (mkGlobals s1 s2 (PyList db)) in
   create_post (Order_dict order) db out.1 (orders_db out.2) ∧
   users_db out.2 = s1 ∧ products_db out.2 = s2).
Proof.
  split; [|split]; (split; [apply create_post_insert | done]).
Qed.
End Create.

(** * The handlers that look a record up by id *)

(** Splits on what the users store holds and on what the scan found. *)
Ltac by_scan g id :=
  let db := fresh "db" in
  let Hdb := fresh "Hdb" in
  let Hs := fresh "Hs" in
  destruct (users_db g) as [|db] eqn:Hdb;
  [| destruct (scan 0 db id) as [[[? ?]|]|?] eqn:Hs ].

Section ById.
Implicit Types (db : list record) (g : globals) (id : Z) (user : User).

Lemma absent_present id db : absent id db → present id db → False.
Proof.
  unfold absent, present. rewrite Forall_forall, Exists_exists.
  intros Hno (r & Hin & Hr). specialize (Hno r Hin). congruence.
Qed.

Lemma scan_found_present i db id j r :
  scan i db id = Return (Some (j, r)) → present id db.
Proof.
  intros (k & _ & Hk & Hm & _)%scan_found.
  apply Exists_exists. exists r. split; [|done].
  apply list_elem_of_lookup. eauto.
Qed.

Lemma scan_found_lt db id j r :
  scan 0 db id = Return (Some (j, r)) → (j < length db)%nat.
Proof.
  intros (k & -> & Hk & _)%scan_found. by apply lookup_lt_Some in Hk.
Qed.

Lemma matches_insert_id id (fields : record) :
  matches id (<["id" := VInt id]> fields) = true.
Proof.
  unfold matches. rewrite lookup_insert_eq. simpl. apply Z.eqb_refl.
Qed.

(** C3. On a users store whose records all carry an ["id"] key,
    [get_user], [update_user] and [delete_user] raise the 404
    [HTTPException] exactly when no stored record has the id asked for;
    in particular none of them returns normally in that case. *)
Theorem not_found_iff_absent db (s1 s2 : pyobj) id user :
  keyed db →
  let g := mkGlobals (PyList db) s1 s2 in
  (not_found (get_user id g) ↔ absent id db) ∧
  (not_found (update_user id user g) ↔ absent id db) ∧
  (not_found (delete_user id g) ↔ absent id db).
Proof.
  intros Hk g. unfold not_found, get_user, update_user, delete_user.
  destruct (scan_keyed 0 db id Hk) as [[[j r]|] Hs]; cbn [users_db g];
    rewrite Hs.
  - assert (Hp := scan_found_present _ _ _ _ _ Hs).
    assert (Hlt := scan_found_lt _ _ _ _ Hs).
    cbv zeta. rewrite list_lookup_insert_eq by done.
    split_and!; (split; [by intros [? [=]] | intros Hno]);
      destruct (absent_present _ _ Hno Hp).
  - apply scan_none in Hs as [_ Hno].
    split_and!; (split; [done | intros _; by eexists]).
Qed.

(** C5. On a users store whose records all carry an ["id"] key and
    that holds a record with the id, [update_user] replaces the first
    such record, at its own index, by the posted fields with ["id"]
    set to the id of the request, leaves every other element alone and
    returns the new record; [get_user] with the same id then returns
    that record, whose ["id"] is the requested id and whose other
    fields are the posted ones. *)
Theorem update_replaces_in_place db (s1 s2 : pyobj) id user :
  keyed db → present id db →
  ∃ (i : nat) (old new : record),
    db !! i = Some old ∧ matches id old = true ∧ absent id (take i db) ∧
    update_user id user (mkGlobals (PyList db) s1 s2)
      = (Return new, mkGlobals (PyList (<[i := new]> db)) s1 s2) ∧
    <[i := new]> db !! i = Some new ∧
    length (<[i := new]> db) = length db ∧
    (∀ j : nat, j ≠ i → <[i := new]> db !! j = db !! j) ∧
    get_user id (mkGlobals (PyList (<[i := new]> db)) s1 s2)
      = (Return new, mkGlobals (PyList (<[i := new]> db)) s1 s2) ∧
    new !! "id" = Some (VInt id) ∧
    (∀ k : string, k ≠ "id" → new !! k = User_dict user !! k).
Proof.
  intros Hk Hp.
  destruct (scan_first_match 0 db id Hk Hp) as (i & old & Hs).
  assert (Hlt := scan_found_lt _ _ _ _ Hs).
  destruct (scan_found _ _ _ _ _ Hs) as (k & Hik & Hold & Hm & Hkey & Hno).
  simpl in Hik; subst k.
  set (new := <["id" := VInt id]> (User_dict user)).
  exists i, old, new. split_and!.
  - done.
  - done.
  - done.
  - unfold update_user; cbn [users_db]. rewrite Hs. cbv zeta. fold new.
    by rewrite list_lookup_insert_eq.
  - by apply list_lookup_insert_eq.
  - apply length_insert.
  - intros j Hj. by apply list_lookup_insert_ne.
  - unfold get_user; cbn [users_db].
    rewrite insert_take_drop by done. rewrite scan_skip by done.
    rewrite scan_hit; [done|]. apply matches_insert_id.
  - apply lookup_insert_eq.
  - intros k Hne. by apply lookup_insert_ne.
Qed.

(** C9. Whenever [get_user], [update_user] or [delete_user] raises
    (the 404 failure or any other exception), the module globals after
    the call are the globals before it. *)
Theorem failure_leaves_state g id user (e : exn) (g' : globals) :
  get_user id g = (Raise e, g') ∨
  update_user id user g = (Raise e, g') ∨
  delete_user id g = (Raise e, g') →
  g' = g.
Proof.
  unfold get_user, update_user, delete_user. by_scan g id.
  - intros [H|[H|H]]; congruence.
  - assert (Hlt := scan_found_lt _ _ _ _ Hs).
    cbv zeta. rewrite list_lookup_insert_eq by done.
    intros [H|[H|H]]; congruence.
  - intros [H|[H|H]]; congruence.
  - intros [H|[H|H]]; congruence.
Qed.

(** C10 (as the handlers have it). An [HTTPException] raised by
    [get_user], [update_user] or [delete_user] has status 404 and the
    fixed detail "User not found"; one raised by [get_product] has
    "Product not found", one raised by [get_order] "Order not found".
    The detail names the kind of record and does not depend on the id. *)
Theorem not_found_detail_names_kind g id user status (detail : string) g' :
  (get_user id g = (Raise (HTTPException status detail), g') ∨
   update_user id user g = (Raise (HTTPException status detail), g') ∨
   delete_user id g = (Raise (HTTPException status detail), g') →
   status = 404 ∧ detail = "User not found") ∧
  (get_product id g = (Raise (HTTPException status detail), g') →
   status = 404 ∧ detail = "Product not found") ∧
  (get_order id g = (Raise (HTTPException status detail), g') →
   status = 404 ∧ detail = "Order not found").
Proof.
  split_and!.
  - unfold get_user, update_user, delete_user. by_scan g id.
    + intros [H|[H|H]]; discriminate.
    + assert (Hlt := scan_found_lt _ _ _ _ Hs).
      cbv zeta. rewrite list_lookup_insert_eq by done.
      intros [H|[H|H]]; discriminate.
    + intros [H|[H|H]]; by injection H as <- <- _.
    + apply scan_raises_only_KeyError in Hs as ->.
      intros [H|[H|H]]; discriminate.
  - unfold get_product. destruct (products_db g) as [|db]; [done|].
    destruct (scan 0 db id) as [[[? ?]|]|?] eqn:Hs; [done| |].
    + by intros [= <- <- _].
    + apply scan_raises_only_KeyError in Hs as ->. done.
  - unfold get_order. destruct (orders_db g) as [|db]; [done|].
    destruct (scan 0 db id) as [[[? ?]|]|?] eqn:Hs; [done| |].
    + by intros [= <- <- _].
    + apply scan_raises_only_KeyError in Hs as ->. done.
Qed.

Lemma not_found_iff_absent_witness :
  keyed two_users ∧
  (not_found (get_user 3 two_users_state) ↔ absent 3 two_users) ∧
  (not_found (update_user 3 carol two_users_state) ↔ absent 3 two_users) ∧
  (not_found (delete_user 3 two_users_state) ↔ absent 3 two_users).
Proof.
  assert (Hk : keyed two_users) by (repeat constructor; vm_compute; eauto).
  split; [exact Hk|].
  exact (not_found_iff_absent two_users (PyList []) (PyList []) 3 carol Hk).
Defined.

Lemma update_replaces_in_place_witness :
  keyed two_users ∧ present 2 two_users ∧
  ∃ (i : nat) (old new : record),
    two_users !! i = Some old ∧ matches 2 old = true ∧
    absent 2 (take i two_users) ∧
    update_user 2 carol two_users_state
      = (Return new,
         mkGlobals (PyList (<[i := new]> two_users)) (PyList [])
           (PyList [])) ∧
    <[i := new]> two_users !! i = Some new ∧
    length (<[i := new]> two_users) = length two_users ∧
    (∀ j : nat, j ≠ i → <[i := new]> two_users !! j = two_users !! j) ∧
    get_user 2
      (mkGlobals (PyList (<[i := new]> two_users)) (PyList []) (PyList []))
      = (Return new,
         mkGlobals (PyList (<[i := new]> two_users)) (PyList [])
           (PyList [])) ∧
    new !! "id" = Some (VInt 2) ∧
    (∀ k : string, k ≠ "id" → new !! k = User_dict carol !! k).
Proof.
  assert (Hk : keyed two_users) by (repeat constructor; vm_compute; eauto).
  assert (Hp : present 2 two_users)
    by (apply Exists_cons_tl, Exists_cons_hd; vm_compute; reflexivity).
  split; [exact Hk|]. split; [exact Hp|].
  exact (update_replaces_in_place two_users (PyList []) (PyList []) 2 carol
           Hk Hp).
Defined.

Lemma failure_leaves_state_witness :
  (get_user 5 two_users_state
     = (Raise (HTTPException 404 "User not found"), two_users_state) ∨
   update_user 5 carol two_users_state
     = (Raise (HTTPException 404 "User not found"), two_users_state) ∨
   delete_user 5 two_users_state
     = (Raise (HTTPException 404 "User not found"), two_users_state)) ∧
  two_users_state = two_users_state.
Proof.
  assert (H : get_user 5 two_users_state
     = (Raise (HTTPException 404 "User not found"), two_users_state) ∨
   update_user 5 carol two_users_state
     = (Raise (HTTPException 404 "User not found"), two_users_state) ∨
   delete_user 5 two_users_state
     = (Raise (HTTPException 404 "User not found"), two_users_state))
    by (right; left; vm_compute; reflexivity).
  split; [exact H|].
  exact (failure_leaves_state two_users_state 5 carol _ _ H).
Defined.

Lemma not_found_detail_names_kind_witness :
  delete_user 5 two_users_state
    = (Raise (HTTPException 404 "User not found"), two_users_state) ∧
  get_product 5 two_users_state
    = (Raise (HTTPException 404 "Product not found"), two_users_state) ∧
  get_order 5 two_users_state
    = (Raise (HTTPException 404 "Order not found"), two_users_state) ∧
  (404 = 404 ∧ "User not found" = "User not found") ∧
  (404 = 404 ∧ "Product not found" = "Product not found") ∧
  (404 = 404 ∧ "Order not found" = "Order not found").
Proof.
  assert (Hu : delete_user 5 two_users_state
    = (Raise (HTTPException 404 "User not found"), two_users_state))
    by (vm_compute; reflexivity).
  assert (Hp : get_product 5 two_users_state
    = (Raise (HTTPException 404 "Product not found"), two_users_state))
    by (vm_compute; reflexivity).
  assert (Ho : get_order 5 two_users_state
    = (Raise (HTTPException 404 "Order not found"), two_users_state))
    by (vm_compute; reflexivity).
  refine (conj Hu (conj Hp (conj Ho (conj _ (conj _ _))))).
  - exact (proj1 (not_found_detail_names_kind two_users_state 5 carol
                    404 "User not found" two_users_state)
             (or_intror (or_intror Hu))).
  - exact (proj1 (proj2 (not_found_detail_names_kind two_users_state 5 carol
                    404 "Product not found" two_users_state)) Hp).
  - exact (proj2 (proj2 (not_found_detail_names_kind two_users_state 5 carol
                    404 "Order not found" two_users_state)) Ho).
Defined.
End ById.

(** * Deleting and re-reading *)

Section Delete.
Implicit Types (db : list record) (id : Z).

(** [delete_user] removes the first record with the id and nothing
    else: the store becomes the elements before it followed by the
    elements after it. *)
Lemma delete_removes_first_match db (s1 s2 : pyobj) id :
  keyed db → present id db →
  ∃ (i : nat) (old : record),
    db !! i = Some old ∧ matches id old = true ∧ absent id (take i db) ∧
    delete_user id (mkGlobals (PyList db) s1 s2)
      = (Return {["deleted" := VBool true]},
         mkGlobals (PyList (take i db ++ drop (S i) db)) s1 s2).
Proof.
  intros Hk Hp.
  destruct (scan_first_match 0 db id Hk Hp) as (i & old & Hs).
  destruct (scan_found _ _ _ _ _ Hs) as (k & Hik & Hold & Hm & _ & Hno).
  simpl in Hik; subst k. exists i, old. split_and!; [done..|].
  unfold delete_user; cbn [users_db]. rewrite Hs.
  by rewrite delete_take_drop.
Qed.

(** When the id occurs once, the record is gone after the delete. *)
Lemma delete_then_get_when_unique db (s1 s2 : pyobj) id (i : nat) :
  keyed db → absent id (take i db) → absent id (drop (S i) db) →
  get_user id (mkGlobals (PyList (take i db ++ drop (S i) db)) s1 s2)
  = (Raise (HTTPException 404 "User not found"),
     mkGlobals (PyList (take i db ++ drop (S i) db)) s1 s2).
Proof.
  intros Hk Hl Hr. unfold get_user; cbn [users_db].
  rewrite scan_no_match; [done| |].
  - apply Forall_app. split; [by apply Forall_take | by apply Forall_drop].
  - apply Forall_app. by split.
Qed.

(** X4. When no stored record already has the id a create is about to hand
    out, reading that id back returns the created record. *)
Lemma create_then_get_when_fresh db (s1 s2 : pyobj) (user : User) :
  keyed db → absent (Z.of_nat (length db) + 1) db →
  let out := create_user user (mkGlobals (PyList db) s1 s2) in
  ∃ r : record,
    out.1 = Return r ∧
    get_user (Z.of_nat (length db) + 1) out.2 = (Return r, out.2).
Proof.
  intros Hk Hno. eexists. split; [reflexivity|].
  unfold get_user; cbn. rewrite scan_skip by done.
  rewrite scan_hit; [done|]. apply matches_insert_id.
Qed.
End Delete.

(** * Sequences of requests *)

Section Traces.
Implicit Types (db : list record) (g : globals).

Lemma StronglySorted_seqZ (n : nat) (m : Z) :
  StronglySorted Z.lt (seqZ m (Z.of_nat n)).
Proof.
  revert m; induction n as [|n IH]; intros m.
  { rewrite seqZ_nil by done. constructor. }
  rewrite seqZ_cons by lia.
  replace (Z.pred (Z.of_nat (S n))) with (Z.of_nat n) by lia.
  constructor; [apply IH|]. apply Forall_seqZ. lia.
Qed.

Lemma serve_creates (users : list User) db (s1 s2 : pyobj) :
  map assigned_id
    (serve_all (map CreateUser users) (mkGlobals (PyList db) s1 s2)).1
  = map (λ z : Z, Some (VInt z))
      (seqZ (Z.of_nat (length db) + 1) (Z.of_nat (length users))).
Proof.
  revert db; induction users as [|user users IH]; intros db; [done|].
  cbn [map serve_all serve create_user users_db with_body set_users_db
       products_db orders_db].
  set (r := <["id" := VInt (Z.of_nat (length db) + 1)]> (User_dict user)).
  specialize (IH (db ++ [r])%list).
  destruct (serve_all _ _) as [outs g2]. cbn [fst map assigned_id] in *.
  rewrite IH. rewrite (seqZ_cons _ (Z.of_nat (length (user :: users))))
    by (cbn [length]; lia).
  cbn [map]. f_equal; try apply lookup_insert_eq.
  rewrite length_app. cbn [length]. do 2 f_equal; lia.
Qed.

(** C7. From any users store, a run of create requests and nothing
    else hands out the ids [len(db) + 1, len(db) + 2, ...], one per
    request: a strictly increasing sequence without repetition. *)
Theorem create_ids_strictly_increasing
    db (s1 s2 : pyobj) (users : list User) :
  ∃ ids : list Z,
    map assigned_id
      (serve_all (map CreateUser users) (mkGlobals (PyList db) s1 s2)).1
    = map (λ z : Z, Some (VInt z)) ids ∧
    length ids = length users ∧
    ids = seqZ (Z.of_nat (length db) + 1) (Z.of_nat (length users)) ∧
    StronglySorted Z.lt ids ∧
    NoDup ids.
Proof.
  eexists. split; [apply serve_creates|]. split_and!.
  - rewrite length_seqZ. lia.
  - done.
  - apply StronglySorted_seqZ.
  - apply NoDup_seqZ.
Qed.
End Traces.

(** * Id assignment across deletes *)

Section Ids.
Implicit Types (db : list record) (g : globals) (rq : user_request).

Lemma sequential_lookup db (i : nat) (r : record) :
  sequential db → db !! i = Some r →
  r !! "id" = Some (VInt (1 + Z.of_nat i)).
Proof.
  unfold sequential, stored_ids. intros Hseq Hr.
  assert (Hi : Z.of_nat i < Z.of_nat (length db))
    by (apply lookup_lt_Some in Hr; lia).
  apply (f_equal (λ l, l !! i)) in Hseq.
  rewrite !list_lookup_fmap, Hr, lookup_seqZ_lt in Hseq by done.
  by injection Hseq.
Qed.

Lemma sequential_snoc db (r : record) :
  sequential db → r !! "id" = Some (VInt (Z.of_nat (length db) + 1)) →
  sequential (db ++ [r]).
Proof.
  unfold sequential, stored_ids. intros Hseq Hr.
  rewrite fmap_app, length_app, Hseq. cbn [length fmap list_fmap].
  rewrite Nat.add_1_r, seqZ_S, fmap_app, Hr. cbn [fmap list_fmap].
  do 4 f_equal. lia.
Qed.

Lemma sequential_update db (i : nat) (old : record) (id : Z)
    (fields : record) :
  sequential db → db !! i = Some old → matches id old = true →
  sequential (<[i := <["id" := VInt id]> fields]> db).
Proof.
  intros Hseq Hold Hm.
  assert (Hid := sequential_lookup _ _ _ Hseq Hold).
  unfold matches in Hm. rewrite Hid in Hm. simpl in Hm.
  apply Z.eqb_eq in Hm. subst id.
  unfold sequential, stored_ids in *.
  rewrite list_fmap_insert, length_insert, lookup_insert_eq.
  rewrite list_insert_id; [done|].
  by rewrite list_lookup_fmap, Hold, <- Hid.
Qed.

(** A request other than a delete keeps the ids [1 .. len]. *)
Lemma serve_keeps_sequential rq g db :
  is_delete rq = false → users_db g = PyList db → sequential db →
  ∃ db', users_db (serve rq g).2 = PyList db' ∧ sequential db'.
Proof.
  intros Hrq Hg Hseq. destruct rq as [|id|user|id user|id]; [..|done].
  - exists db. by rewrite <- Hg.
  - exists db. rewrite <- Hg. unfold serve, get_user. rewrite Hg.
    by destruct (scan 0 db id) as [[[? ?]|]|?].
  - eexists. unfold serve, create_user. rewrite Hg. split; [reflexivity|].
    apply sequential_snoc; [done|]. apply lookup_insert_eq.
  - unfold serve, update_user. rewrite Hg.
    destruct (scan 0 db id) as [[[i old]|]|?] eqn:Hs;
      [|by (exists db) ..].
    destruct (scan_found _ _ _ _ _ Hs) as (k & Hik & Hold & Hm & _).
    simpl in Hik; subst k.
    exists (<[i := <["id" := VInt id]> (User_dict user)]> db). split.
    + cbv zeta. by destruct (<[i := _]> db !! i).
    + by eapply sequential_update.
Qed.

Lemma serve_all_keeps_sequential (rqs : list user_request) g db :
  Forall (λ rq, is_delete rq = false) rqs →
  users_db g = PyList db → sequential db →
  ∃ db', users_db (serve_all rqs g).2 = PyList db' ∧ sequential db'.
Proof.
  revert g db; induction rqs as [|rq rqs IH]; intros g db Hrqs Hg Hseq.
  { exists db. by split. }
  apply Forall_cons in Hrqs as [Hrq Hrqs].
  destruct (serve_keeps_sequential rq g db Hrq Hg Hseq) as (db1 & Hg1 & Hseq1).
  cbn [serve_all]. destruct (serve rq g) as [out g1].
  destruct (IH g1 db1 Hrqs Hg1 Hseq1) as (db2 & Hg2 & Hseq2).
  destruct (serve_all rqs g1) as [outs g2]. eauto.
Qed.

Lemma sequential_NoDup db : sequential db → NoDup (stored_ids db).
Proof.
  intros ->. apply NoDup_fmap_2; [|apply NoDup_seqZ].
  by intros z1 z2 [= ->].
Qed.

(** Without deletes the stored ids stay pairwise distinct. *)
Lemma ids_distinct_without_delete (rqs : list user_request) :
  Forall (λ rq, is_delete rq = false) rqs →
  NoDup (stored_ids (records_of (users_db (serve_all rqs module_init).2))).
Proof.
  intros Hrqs.
  destruct (serve_all_keeps_sequential rqs module_init [] Hrqs eq_refl)
    as (db & -> & Hseq); [done|].
  by apply sequential_NoDup.
Qed.

Lemma int_ids_keyed db : int_ids db → keyed db.
Proof.
  intros Hint. eapply Forall_impl; [exact Hint|]. intros r [z ->]. eauto.
Qed.

(** Every request, deletes included, keeps an [int] id in every stored
    record and keeps the store a list. *)
Lemma serve_keeps_int_ids rq g db :
  users_db g = PyList db → int_ids db →
  ∃ db', users_db (serve rq g).2 = PyList db' ∧ int_ids db'.
Proof.
  intros Hg Hint. destruct rq as [|id|user|id user|id].
  - exists db. by rewrite <- Hg.
  - exists db. rewrite <- Hg. unfold serve, get_user. rewrite Hg.
    by destruct (scan 0 db id) as [[[? ?]|]|?].
  - eexists. unfold serve, create_user. rewrite Hg. split; [reflexivity|].
    apply Forall_app. split; [done|]. constructor; [|done].
    eexists. apply lookup_insert_eq.
  - unfold serve, update_user. rewrite Hg.
    destruct (scan 0 db id) as [[[i old]|]|?]; [|by (exists db) ..].
    exists (<[i := <["id" := VInt id]> (User_dict user)]> db). split.
    + cbv zeta. by destruct (<[i := _]> db !! i).
    + apply Forall_insert; [done|]. eexists. apply lookup_insert_eq.
  - unfold serve, delete_user. rewrite Hg.
    destruct (scan 0 db id) as [[[i old]|]|?]; [|by (exists db) ..].
    exists (delete i db). split; [done|]. by apply Forall_delete.
Qed.

(** Whatever requests were served since the module was loaded, the users
    store is a list whose records all carry an [int] id. *)
Lemma served_store_int_ids (rqs : list user_request) :
  ∃ db, users_db (serve_all rqs module_init).2 = PyList db ∧ int_ids db.
Proof.
  assert (Hgen : ∀ g db, users_db g = PyList db → int_ids db →
    ∃ db', users_db (serve_all rqs g).2 = PyList db' ∧ int_ids db').
  { induction rqs as [|rq rqs IH]; intros g db Hg Hint; [by eauto|].
    destruct (serve_keeps_int_ids rq g db Hg Hint) as (db1 & Hg1 & Hint1).
    cbn [serve_all]. destruct (serve rq g) as [out g1].
    destruct (IH g1 db1 Hg1 Hint1) as (db2 & Hg2 & Hint2).
    destruct (serve_all rqs g1) as [outs g2]. eauto. }
  apply (Hgen module_init []); [done | constructor].
Qed.

(** C2 (the run that breaks it). After two creates, a delete of id 1
    and a third create, every request having succeeded, the users store
    holds two records whose ["id"] is 2: the stored ids are not
    pairwise distinct. *)
Theorem ids_collide_after_delete_then_create :
  map assigned_id (serve_all reuse_trace module_init).1
    = [Some (VInt 1); Some (VInt 2); None; Some (VInt 2)] ∧
  stored_ids (records_of (users_db reuse_state))
    = [Some (VInt 2); Some (VInt 2)] ∧
  ¬ NoDup (stored_ids (records_of (users_db reuse_state))).
Proof.
  assert (H : stored_ids (records_of (users_db reuse_state))
              = [Some (VInt 2); Some (VInt 2)]) by (vm_compute; reflexivity).
  split_and!; [vm_compute; reflexivity | exact H |].
  rewrite H. intros [Hin _]%NoDup_cons. apply Hin. by left.
Qed.

(** C4 (the run that breaks it). On the store left by two creates and
    a delete of id 1, [create_user] returns Carol's record with id 2,
    and [get_user 2] on the resulting store returns Bob's record, which
    is a different record. *)
Theorem create_then_get_returns_older_record :
  create_user carol gap_state
    = (Return (<["id" := VInt 2]> (User_dict carol)), reuse_state) ∧
  get_user 2 reuse_state
    = (Return (<["id" := VInt 2]> (User_dict bob)), reuse_state) ∧
  <["id" := VInt 2]> (User_dict bob) ≠ <["id" := VInt 2]> (User_dict carol).
Proof.
  split_and!; [vm_compute; reflexivity ..|].
  intros H. apply (f_equal (λ m : record, m !! "name")) in H.
  vm_compute in H. discriminate.
Qed.

(** C6 (the run that breaks it). On the store holding Bob and Carol,
    both with id 2, [delete_user 2] returns its confirmation and removes
    Bob only; [get_user 2] afterwards returns Carol's record instead of
    raising the 404 failure. *)
Theorem delete_then_get_still_finds_duplicate :
  delete_user 2 reuse_state
    = (Return {["deleted" := VBool true]}, after_delete_state) ∧
  users_db after_delete_state
    = PyList [<["id" := VInt 2]> (User_dict carol)] ∧
  get_user 2 after_delete_state
    = (Return (<["id" := VInt 2]> (User_dict carol)), after_delete_state) ∧
  ¬ not_found (get_user 2 after_delete_state).
Proof.
  assert (H : get_user 2 after_delete_state
    = (Return (<["id" := VInt 2]> (User_dict carol)), after_delete_state))
    by (vm_compute; reflexivity).
  split_and!; [vm_compute; reflexivity .. | exact H |].
  rewrite H. by intros [? [=]].
Qed.
End Ids.

(** * Listing *)

(** C8 (where the handler departs from it). [list_users] never raises
    and returns whatever [users_db] is bound to: the empty list on the
    fresh module, but [None], not an empty list, when the store is
    [None]; and the call [list_users(None)] of the test module raises
    [TypeError], the handler taking no argument. *)
Theorem list_users_returns_store_as_is :
  (∀ g : globals, list_users g = (Return (users_db g), g)) ∧
  list_users module_init = (Return (PyList []), module_init) ∧
  list_users absent_store_state = (Return PyNone, absent_store_state) ∧
  PyNone ≠ PyList [] ∧
  call_no_params "list_users" list_users [PyNone] module_init
    = (Raise (TypeError
         "list_users() takes 0 positional arguments but 1 was given"),
       module_init).
Proof.
  split_and!; [done | done | done | done | vm_compute; reflexivity].
Qed.

(** * The detail of the 404 failure *)

(** C10 (refuted as stated). [get_user 7] on the fresh module raises the
    404 failure with detail "User not found"; the numeral 7 does not occur
    in it, so the detail of a not-found failure does not always identify
    the missing id. *)
Lemma not_found_detail_omits_id :
  get_user 7 module_init
    = (Raise (HTTPException 404 "User not found"), module_init) ∧
  mentions_id "User not found" 7 = false ∧
  ¬ (∀ (g : globals) (id : Z) (detail : string) (g' : globals),
       get_user id g = (Raise (HTTPException 404 detail), g') →
       mentions_id detail id = true).
Proof.
  split_and!; [done | vm_compute; reflexivity |].
  intros H. specialize (H module_init 7 "User not found" module_init eq_refl).
  vm_compute in H. discriminate.
Qed.

(** * Worked runs *)

Example py_eq_int_float :
  py_eq_int (VFloat (S754_finite false 1 1)) 2 = true ∧
  py_eq_int (VFloat (S754_finite false 5 (-1))) 2 = false ∧
  py_eq_int (VBool true) 1 = true ∧
  py_eq_int (VStr "2") 2 = false.
Proof. done. Qed.

Example create_alice_then_bob :
  (serve_all [CreateUser alice; CreateUser bob; ListUsers] module_init).1
  = [Return (BodyDict (<["id" := VInt 1]> (User_dict alice)));
     Return (BodyDict (<["id" := VInt 2]> (User_dict bob)));
     Return (BodyList (PyList two_users))] ∧
  <["id" := VInt 2]> (User_dict bob) !! "id" = Some (VInt 2).
Proof. split; vm_compute; reflexivity. Qed.

Example delete_twice :
  (serve_all [DeleteUser 1; DeleteUser 1] two_users_state).1
  = [Return (BodyDict {["deleted" := VBool true]});
     Raise (HTTPException 404 "User not found")] ∧
  users_db (serve_all [DeleteUser 1; DeleteUser 1] two_users_state).2
  = PyList [<["id" := VInt 2]> (User_dict bob)].
Proof. split; vm_compute; reflexivity. Qed.

Example create_widget_and_basket :
  (create_product widget module_init).1
    = Return (<["id" := VInt 1]> (Product_dict widget)) ∧
  (create_order basket module_init).1
    = Return (<["id" := VInt 1]> (Order_dict basket)) ∧
  <["id" := VInt 1]> (Order_dict basket) !! "id" = Some (VInt 1) ∧
  Order_dict basket !! "id" = Some (VInt 7).
Proof. split_and!; vm_compute; reflexivity. Qed.

(** * Reads after writes to other ids *)

Section Frames.
Implicit Types (db : list record) (g : globals) (id : Z) (r : record).

(** A stored value equals at most one integer. *)
Lemma py_eq_int_inj (v : value) (n m : Z) :
  py_eq_int v n = true → py_eq_int v m = true → n = m.
Proof.
  destruct v as [|b|z|f|s|l]; unfold py_eq_int; try done.
  - intros ?%Z.eqb_eq ?%Z.eqb_eq. congruence.
  - intros ?%Z.eqb_eq ?%Z.eqb_eq. congruence.
  - destruct f as [s|s| |s mant e]; try done.
    + intros ?%Z.eqb_eq ?%Z.eqb_eq. congruence.
    + destruct (0 <=? e) eqn:He.
      * intros ?%Z.eqb_eq ?%Z.eqb_eq. congruence.
      * intros Hn%Z.eqb_eq Hm%Z.eqb_eq. apply Z.leb_gt in He.
        assert (0 < 2 ^ (- e)) by (apply Z.pow_pos_nonneg; lia).
        rewrite Hn in Hm. apply Z.mul_cancel_r in Hm; lia.
Qed.

Lemma matches_inj id id' r :
  matches id r = true → matches id' r = true → id = id'.
Proof.
  unfold matches. destruct (r !! "id") as [v|]; [|done]. apply py_eq_int_inj.
Qed.

Lemma matches_is_Some id r : matches id r = true → is_Some (r !! "id").
Proof. unfold matches. destruct (r !! "id"); [eauto|done]. Qed.

Lemma matches_insert_other id id' (fields : record) :
  id ≠ id' → matches id' (<["id" := VInt id]> fields) = false.
Proof.
  intros Hne. unfold matches. rewrite lookup_insert_eq. simpl.
  by apply Z.eqb_neq.
Qed.

Lemma found_scan_shift (i j : nat) db id :
  found (scan i db id) = found (scan j db id).
Proof.
  revert i j; induction db as [|r db IH]; intros i j; simpl; [done|].
  destruct (r !! "id") as [v|]; [|done].
  destruct (py_eq_int v id); [done|]. apply IH.
Qed.

(** A record that has an ["id"] key other than the one looked for can be
    dropped from the list without changing what the scan finds. *)
Lemma found_scan_drop_one (i : nat) db1 r db2 id :
  is_Some (r !! "id") → matches id r = false →
  found (scan i (db1 ++ r :: db2) id) = found (scan i (db1 ++ db2) id).
Proof.
  intros [v Hv] Hr. revert i; induction db1 as [|r1 db1 IH]; intros i; simpl.
  - unfold matches in Hr. rewrite Hv in Hr |- *. rewrite Hr.
    apply found_scan_shift.
  - destruct (r1 !! "id") as [v1|]; [|done].
    destruct (py_eq_int v1 id); [done|]. apply IH.
Qed.

Lemma get_user_answer db (s1 s2 : pyobj) id :
  (get_user id (mkGlobals (PyList db) s1 s2)).1
  = answer "User not found" (found (scan 0 db id)).
Proof.
  unfold get_user; cbn [users_db].
  by destruct (scan 0 db id) as [[[? ?]|]|?].
Qed.

(** Replacing or removing the first record with id [id] does not change
    what a scan for another id finds. *)
Lemma found_scan_after_write db id id' (i : nat) (old : record)
    (fields : record) :
  id ≠ id' → scan 0 db id = Return (Some (i, old)) →
  found (scan 0 (<[i := <["id" := VInt id]> fields]> db) id')
    = found (scan 0 db id') ∧
  found (scan 0 (delete i db) id') = found (scan 0 db id').
Proof.
  intros Hne Hs.
  destruct (scan_found _ _ _ _ _ Hs) as (k & Hik & Hold & Hm & _).
  simpl in Hik; subst k.
  assert (Hlt : (i < length db)%nat) by by apply lookup_lt_Some in Hold.
  assert (Hold' : matches id' old = false).
  { destruct (matches id' old) eqn:Hm'; [|done].
    destruct Hne. by eapply matches_inj. }
  assert (Hdb : found (scan 0 db id')
                = found (scan 0 (take i db ++ drop (S i) db) id')).
  { rewrite <- (take_drop_middle db i old) at 1 by done.
    apply found_scan_drop_one; [by eapply matches_is_Some | done]. }
  split.
  - rewrite insert_take_drop by done. rewrite Hdb.
    apply found_scan_drop_one.
    + rewrite lookup_insert_eq. eauto.
    + by apply matches_insert_other.
  - by rewrite delete_take_drop.
Qed.

(** X7. On any module state, [update_user] and [delete_user] for one id,
    whether they succeed or fail, leave the response of [get_user] for
    every other id as it was. *)
Theorem writes_by_id_leave_other_ids g id id' (user : User) :
  id ≠ id' →
  (get_user id' (update_user id user g).2).1 = (get_user id' g).1 ∧
  (get_user id' (delete_user id g).2).1 = (get_user id' g).1.
Proof.
  intros Hne. destruct g as [[|db] s1 s2].
  { split; reflexivity. }
  unfold update_user, delete_user; cbn [users_db].
  destruct (scan 0 db id) as [[[i old]|]|e] eqn:Hs; [|by split ..].
  destruct (found_scan_after_write db id id' i old (User_dict user) Hne Hs)
    as [Hup Hdel].
  cbv zeta. destruct (<[i := _]> db !! i); unfold set_users_db;
    cbn [snd products_db orders_db]; rewrite !get_user_answer, Hup, Hdel;
    done.
Qed.

(** X8. [create_user] leaves the response of [get_user] as it was for every
    id other than the one it hands out. *)
Theorem create_leaves_other_ids db (s1 s2 : pyobj) id' (user : User) :
  id' ≠ Z.of_nat (length db) + 1 →
  let g := mkGlobals (PyList db) s1 s2 in
  (get_user id' (create_user user g).2).1 = (get_user id' g).1.
Proof.
  intros Hne g. unfold create_user, g, set_users_db.
  cbn [users_db snd products_db orders_db]. rewrite !get_user_answer. f_equal.
  rewrite <- (app_nil_r db) at 3. apply found_scan_drop_one.
  - rewrite lookup_insert_eq. eauto.
  - apply matches_insert_other. congruence.
Qed.

Lemma scan_insert_hit db id (i : nat) (old : record) (fields : record) :
  scan 0 db id = Return (Some (i, old)) →
  scan 0 (<[i := <["id" := VInt id]> fields]> db) id
  = Return (Some (i, <["id" := VInt id]> fields)).
Proof.
  intros Hs.
  assert (Hlt := scan_found_lt _ _ _ _ Hs).
  destruct (scan_found _ _ _ _ _ Hs) as (k & Hik & _ & _ & Hkey & Hno).
  simpl in Hik; subst k.
  rewrite insert_take_drop by done. rewrite scan_skip by done.
  rewrite scan_hit by apply matches_insert_id.
  rewrite length_take_le by lia. done.
Qed.

(** X6. Two updates of the same id in a row act as the second one alone:
    same response, same state, on any module state. *)
Theorem update_user_last_write_wins g id (user1 user2 : User) :
  update_user id user2 (update_user id user1 g).2 = update_user id user2 g.
Proof.
  destruct g as [[|db] s1 s2]; [done|].
  unfold update_user at 2; cbn [users_db].
  destruct (scan 0 db id) as [[[i old]|]|e] eqn:Hs; [|done..].
  assert (Hlt := scan_found_lt _ _ _ _ Hs).
  cbv zeta. rewrite list_lookup_insert_eq by done.
  unfold update_user, set_users_db; cbn [snd users_db products_db orders_db].
  rewrite (scan_insert_hit _ _ _ _ _ Hs), Hs. cbv zeta.
  by rewrite list_insert_insert_eq.
Qed.
End Frames.

(** * What the get handlers return *)

Section Gets.
Implicit Types (db : list record) (g : globals) (id : Z) (r : record).

Lemma scan_found_first_match db id (i : nat) r :
  scan 0 db id = Return (Some (i, r)) → first_match id db r.
Proof.
  intros (k & Hik & Hr & Hm & _ & Hno)%scan_found. by exists k.
Qed.

(** X1. Whatever [get_user], [get_product] or [get_order] returns is a record
    of its own store that has the id asked for, the first one in list
    order; the globals are left as they were. *)
Theorem get_returns_first_stored_match g id r (g' : globals) :
  (get_user id g = (Return r, g') →
   g' = g ∧ first_match id (records_of (users_db g)) r) ∧
  (get_product id g = (Return r, g') →
   g' = g ∧ first_match id (records_of (products_db g)) r) ∧
  (get_order id g = (Return r, g') →
   g' = g ∧ first_match id (records_of (orders_db g)) r).
Proof.
  split_and!.
  - unfold get_user. destruct (users_db g) as [|db]; [done|].
    destruct (scan 0 db id) as [[[i r0]|]|?] eqn:Hs; [|done..].
    intros [= <- <-]. split; [done|]. by eapply scan_found_first_match.
  - unfold get_product. destruct (products_db g) as [|db]; [done|].
    destruct (scan 0 db id) as [[[i r0]|]|?] eqn:Hs; [|done..].
    intros [= <- <-]. split; [done|]. by eapply scan_found_first_match.
  - unfold get_order. destruct (orders_db g) as [|db]; [done|].
    destruct (scan 0 db id) as [[[i r0]|]|?] eqn:Hs; [|done..].
    intros [= <- <-]. split; [done|]. by eapply scan_found_first_match.
Qed.

(** X2. On a products (orders) store whose records all carry an ["id"] key,
    [get_product] ([get_order]) raises its 404 failure exactly when no
    stored record has the id. *)
Theorem get_product_order_not_found_iff_absent db (s1 s2 : pyobj) id :
  keyed db →
  (not_found (get_product id (mkGlobals s1 (PyList db) s2)) ↔ absent id db) ∧
  (not_found (get_order id (mkGlobals s1 s2 (PyList db))) ↔ absent id db).
Proof.
  intros Hk. unfold not_found, get_product, get_order.
  destruct (scan_keyed 0 db id Hk) as [[[j r]|] Hs];
    cbn [products_db orders_db]; rewrite Hs.
  - assert (Hp := scan_found_present _ _ _ _ _ Hs).
    split; (split; [by intros [? [=]] | intros Hno]);
      destruct (absent_present _ _ Hno Hp).
  - apply scan_none in Hs as [_ Hno].
    split; (split; [done | intros _; by eexists]).
Qed.

(** X3. [delete_user] on a store whose records all carry an ["id"] key and
    that holds the id: it returns [{"deleted": True}] and removes the
    first record with the id and nothing else, so the store is one
    shorter and the other records keep their order; when the id occurred
    only once, [get_user] for it then raises the 404 failure. *)
Theorem delete_user_effect db (s1 s2 : pyobj) id :
  keyed db → present id db →
  ∃ (i : nat) (old : record),
    db !! i = Some old ∧ matches id old = true ∧ absent id (take i db) ∧
    delete_user id (mkGlobals (PyList db) s1 s2)
      = (Return {["deleted" := VBool true]},
         mkGlobals (PyList (take i db ++ drop (S i) db)) s1 s2) ∧
    S (length (take i db ++ drop (S i) db)) = length db ∧
    (occurs_once id db →
     get_user id (mkGlobals (PyList (take i db ++ drop (S i) db)) s1 s2)
     = (Raise (HTTPException 404 "User not found"),
        mkGlobals (PyList (take i db ++ drop (S i) db)) s1 s2)).
Proof.
  intros Hk Hp.
  destruct (delete_removes_first_match db s1 s2 id Hk Hp)
    as (i & old & Hold & Hm & Hno & Hdel).
  assert (Hlt : (i < length db)%nat) by by apply lookup_lt_Some in Hold.
  exists i, old. split_and!.
  - done.
  - done.
  - done.
  - done.
  - rewrite length_app, length_take_le, length_drop by lia. lia.
  - intros Honce. apply delete_then_get_when_unique; [done..|].
    apply Forall_lookup. intros j r Hr. rewrite lookup_drop in Hr.
    destruct (matches id r) eqn:Hmr; [|done].
    specialize (Honce _ _ _ _ Hold Hr Hm Hmr). lia.
Qed.

(** X9. The number of stored users after a request: one more after a create,
    one less after a delete that returned, unchanged in every other case
    (reads, updates, and every request that raised). *)
Theorem users_count_changes (rq : user_request) db (s1 s2 : pyobj) :
  ∃ db' : list record,
    users_db (serve rq (mkGlobals (PyList db) s1 s2)).2 = PyList db' ∧
    length db'
    = expected_count rq (serve rq (mkGlobals (PyList db) s1 s2)).1 (length db).
Proof.
  destruct rq as [|id|user|id user|id]; unfold serve.
  - by exists db.
  - exists db. unfold get_user; cbn [users_db].
    by destruct (scan 0 db id) as [[[? ?]|]|?].
  - eexists. split; [reflexivity|]. rewrite length_app. simpl. lia.
  - unfold update_user; cbn [users_db].
    destruct (scan 0 db id) as [[[i old]|]|?] eqn:Hs; [|by exists db..].
    assert (Hlt := scan_found_lt _ _ _ _ Hs).
    cbv zeta. rewrite list_lookup_insert_eq by done.
    eexists. split; [reflexivity|]. apply length_insert.
  - unfold delete_user; cbn [users_db].
    destruct (scan 0 db id) as [[[i old]|]|?] eqn:Hs; [|by exists db..].
    assert (Hlt := scan_found_lt _ _ _ _ Hs).
    eexists. split; [reflexivity|]. rewrite length_delete; [simpl; lia|].
    by apply lookup_lt_is_Some.
Qed.

(** X10. After a run of creates on a store holding [db], the store (what
    [list_users] returns) is [db] followed by the posted users in the
    order of the requests, the [i]-th with id [len(db) + 1 + i]. *)
Theorem list_after_creates db (s1 s2 : pyobj) (users : list User) :
  let g' := (serve_all (map CreateUser users) (mkGlobals (PyList db) s1 s2)).2
  in
  list_users g'
  = (Return (PyList (db ++ imap (stored_user (length db)) users)), g').
Proof.
  cbv zeta. unfold list_users. f_equal. f_equal.
  revert db; induction users as [|user users IH]; intros db.
  { simpl. by rewrite app_nil_r. }
  cbn [map serve_all serve create_user users_db with_body].
  unfold set_users_db; cbn [products_db orders_db].
  specialize (IH (db ++ [<["id" := VInt (Z.of_nat (length db) + 1)]>
                          (User_dict user)])%list).
  destruct (serve_all _ _) as [outs g2]. cbn [snd] in *. rewrite IH.
  rewrite <- app_assoc. do 2 f_equal. cbn [app]. rewrite imap_cons.
  unfold stored_user. f_equal.
  - do 2 f_equal. lia.
  - apply imap_ext. intros i u _. cbn. rewrite length_app. cbn [length].
    do 2 f_equal. lia.
Qed.
End Gets.

(** * Every state the routes can reach *)

Section Reachable.
Implicit Types (db : list record) (g : globals) (id : Z) (r : record).

Lemma sequential_int_ids db : sequential db → int_ids db.
Proof.
  intros Hseq. apply Forall_lookup. intros i r Hr.
  eexists. by eapply sequential_lookup.
Qed.

Lemma sequential_keyed db : sequential db → keyed db.
Proof. intros Hseq. by apply int_ids_keyed, sequential_int_ids. Qed.

Lemma sequential_absent db id :
  sequential db → ¬ (1 ≤ id ≤ Z.of_nat (length db)) → absent id db.
Proof.
  intros Hseq Hid. apply Forall_lookup. intros i r Hr.
  assert (Hlt : (i < length db)%nat) by by apply lookup_lt_Some in Hr.
  unfold matches. rewrite (sequential_lookup _ _ _ Hseq Hr). simpl.
  apply Z.eqb_neq. lia.
Qed.

Lemma scan_sequential_miss db id :
  sequential db → ¬ (1 ≤ id ≤ Z.of_nat (length db)) →
  scan 0 db id = Return None.
Proof.
  intros Hseq Hid.
  apply scan_no_match; [by apply sequential_keyed | by apply sequential_absent].
Qed.

Lemma scan_sequential_hit db id :
  sequential db → 1 ≤ id ≤ Z.of_nat (length db) →
  ∃ r, db !! Z.to_nat (id - 1) = Some r ∧
       scan 0 db id = Return (Some (Z.to_nat (id - 1), r)).
Proof.
  intros Hseq Hid. set (j := Z.to_nat (id - 1)).
  assert (Hlt : (j < length db)%nat) by lia.
  destruct (lookup_lt_is_Some_2 db j Hlt) as [r Hr]. exists r. split; [done|].
  rewrite <- (take_drop_middle db j r) at 1 by done.
  rewrite scan_skip.
  - rewrite length_take_le by lia. apply scan_hit.
    unfold matches. rewrite (sequential_lookup _ _ _ Hseq Hr). simpl.
    apply Z.eqb_eq. lia.
  - apply Forall_take. by apply sequential_keyed.
  - apply Forall_lookup. intros i r' [Hr' Hi]%lookup_take_Some.
    unfold matches. rewrite (sequential_lookup _ _ _ Hseq Hr'). simpl.
    apply Z.eqb_neq. lia.
Qed.

Lemma scan_snoc_fresh db id r :
  keyed db → absent id db → matches id r = true →
  scan 0 (db ++ [r]) id = Return (Some (length db, r)).
Proof. intros Hk Hno Hr. rewrite scan_skip by done. by apply scan_hit. Qed.

(** The users routes leave the two other stores alone. *)
Lemma serve_frame (rq : user_request) g :
  products_db (serve rq g).2 = products_db g ∧
  orders_db (serve rq g).2 = orders_db g.
Proof.
  destruct rq as [|id|user|id user|id]; unfold serve, list_users, get_user,
    create_user, update_user, delete_user; destruct (users_db g) as [|db];
    try done; destruct (scan 0 db id) as [[[i old]|]|?]; try done.
  cbv zeta. by destruct (<[i := _]> db !! i).
Qed.

Lemma serve_returns_or_404 (rq : user_request) g db :
  users_db g = PyList db → keyed db → returns_or_404 (serve rq g).1.
Proof.
  intros Hg Hk.
  assert (H404 : returns_or_404 (Raise (HTTPException 404 "User not found"))).
  { eexists. split; [|done]. unfold not_found_details. set_solver. }
  destruct rq as [|id|user|id user|id]; unfold serve, list_users, get_user,
    create_user, update_user, delete_user; rewrite Hg; try done;
    destruct (scan_keyed 0 db id Hk) as [[[i old]|] Hs]; rewrite Hs;
    try done.
  assert (Hlt := scan_found_lt _ _ _ _ Hs).
  cbv zeta. by rewrite list_lookup_insert_eq.
Qed.

Lemma handle_keeps_stores_ok (rq : request) g :
  stores_ok g →
  stores_ok (handle rq g).2 ∧ returns_or_404 (handle rq g).1.
Proof.
  intros (u & p & o & Hu & Hiu & Hp & Hsp & Ho & Hso).
  assert (Hkp := sequential_keyed _ Hsp).
  assert (Hko := sequential_keyed _ Hso).
  destruct rq as [|rq| |id|product| |order|id]; unfold handle.
  - split; [by exists u, p, o | done].
  - destruct (serve_keeps_int_ids rq g u Hu Hiu) as (u' & Hu' & Hiu').
    destruct (serve_frame rq g) as [Hp' Ho'].
    split; [| by eapply serve_returns_or_404, int_ids_keyed].
    exists u', p, o. by rewrite Hp', Ho'.
  - split; [by exists u, p, o | done].
  - unfold get_product. rewrite Hp.
    destruct (scan_keyed 0 p id Hkp) as [[[i old]|] Hs]; rewrite Hs.
    + split; [by exists u, p, o | done].
    + split; [by exists u, p, o |]. eexists. split; [|done].
      unfold not_found_details. set_solver.
  - unfold create_product. rewrite Hp. split; [|done].
    exists u. eexists. exists o. split_and!; try done.
    apply sequential_snoc; [done|]. apply lookup_insert_eq.
  - split; [by exists u, p, o | done].
  - unfold create_order. rewrite Ho. split; [|done].
    exists u, p. eexists. split_and!; try done.
    apply sequential_snoc; [done|]. apply lookup_insert_eq.
  - unfold get_order. rewrite Ho.
    destruct (scan_keyed 0 o id Hko) as [[[i old]|] Hs]; rewrite Hs.
    + split; [by exists u, p, o | done].
    + split; [by exists u, p, o |]. eexists. split; [|done].
      unfold not_found_details. set_solver.
Qed.

Lemma handle_all_keeps_stores_ok (rqs : list request) g :
  stores_ok g →
  stores_ok (handle_all rqs g).2 ∧ Forall returns_or_404 (handle_all rqs g).1.
Proof.
  revert g; induction rqs as [|rq rqs IH]; intros g Hg; [by split|].
  destruct (handle_keeps_stores_ok rq g Hg) as [Hg1 Hout].
  cbn [handle_all]. destruct (handle rq g) as [out g1].
  destruct (IH g1 Hg1) as [Hg2 Houts].
  destruct (handle_all rqs g1) as [outs g2]. split; [done|].
  by constructor.
Qed.

Lemma module_init_stores_ok : stores_ok module_init.
Proof. exists [], [], []. split_and!; by try constructor. Qed.

(** X12. Whatever requests the application has served since the module was
    loaded, every response was a normal return or one of the three 404
    failures: no [KeyError], [TypeError] or [IndexError] ever escapes a
    handler. *)
Theorem handlers_raise_only_404 (rqs : list request) :
  Forall returns_or_404 (handle_all rqs module_init).1.
Proof. apply handle_all_keeps_stores_ok, module_init_stores_ok. Qed.

(** X13. After any run of requests since the module was loaded, the products
    and the orders carry the ids [1 .. len] in list order, so the ids
    within each of the two stores are pairwise distinct. *)
Theorem product_and_order_ids_stay_sequential (rqs : list request) :
  ∃ p o : list record,
    products_db (handle_all rqs module_init).2 = PyList p ∧
    orders_db (handle_all rqs module_init).2 = PyList o ∧
    sequential p ∧ sequential o ∧
    NoDup (stored_ids p) ∧ NoDup (stored_ids o).
Proof.
  destruct (handle_all_keeps_stores_ok rqs module_init module_init_stores_ok)
    as [(u & p & o & _ & _ & Hp & Hsp & Ho & Hso) _].
  exists p, o. split_and!; try done; by apply sequential_NoDup.
Qed.

Lemma sequential_reads_by_position (get : Z → handler record)
    (detail : string) g db :
  sequential db →
  (∀ id, get id g = (answer detail (found (scan 0 db id)), g)) →
  reads_by_position get detail g db.
Proof.
  intros Hseq Hget id. rewrite Hget. split; intros Hid.
  - destruct (scan_sequential_hit db id Hseq Hid) as (r & Hr & ->). eauto.
  - by rewrite scan_sequential_miss.
Qed.

(** X14. After any run of requests since the module was loaded,
    [get_product] and [get_order] read their store by position: an id
    from 1 to the number of stored records returns the record at index
    [id - 1], any other id raises the 404 failure of the store. *)
Theorem products_and_orders_read_by_position (rqs : list request) :
  let g := (handle_all rqs module_init).2 in
  reads_by_position get_product "Product not found" g
    (records_of (products_db g)) ∧
  reads_by_position get_order "Order not found" g
    (records_of (orders_db g)).
Proof.
  cbv zeta.
  destruct (handle_all_keeps_stores_ok rqs module_init module_init_stores_ok)
    as [(u & p & o & _ & _ & Hp & Hsp & Ho & Hso) _].
  split.
  - rewrite Hp. cbn [records_of].
    apply sequential_reads_by_position; [done|]. intros id.
    unfold get_product. rewrite Hp.
    by destruct (scan 0 p id) as [[[? ?]|]|?].
  - rewrite Ho. cbn [records_of].
    apply sequential_reads_by_position; [done|]. intros id.
    unfold get_order. rewrite Ho.
    by destruct (scan 0 o id) as [[[? ?]|]|?].
Qed.

(** X15. After any run of requests since the module was loaded,
    [create_product] followed by [get_product] with the id of the
    returned record returns that record, and likewise for
    [create_order] and [get_order]. *)
Theorem create_then_get_product_and_order
    (rqs : list request) (product : Product) (order : Order) :
  let g := (handle_all rqs module_init).2 in
  (∃ (r : record) (id : Z) (g1 : globals),
     create_product product g = (Return r, g1) ∧
     r !! "id" = Some (VInt id) ∧
     get_product id g1 = (Return r, g1)) ∧
  (∃ (r : record) (id : Z) (g1 : globals),
     create_order order g = (Return r, g1) ∧
     r !! "id" = Some (VInt id) ∧
     get_order id g1 = (Return r, g1)).
Proof.
  cbv zeta.
  destruct (handle_all_keeps_stores_ok rqs module_init module_init_stores_ok)
    as [(u & p & o & _ & _ & Hp & Hsp & Ho & Hso) _].
  split.
  - unfold create_product. rewrite Hp. do 3 eexists.
    split_and!; [reflexivity | apply lookup_insert_eq |].
    unfold get_product, set_products_db; cbn [products_db].
    rewrite scan_snoc_fresh; [done | by apply sequential_keyed | |].
    + apply sequential_absent; [done | lia].
    + apply matches_insert_id.
  - unfold create_order. rewrite Ho. do 3 eexists.
    split_and!; [reflexivity | apply lookup_insert_eq |].
    unfold get_order, set_orders_db; cbn [orders_db].
    rewrite scan_snoc_fresh; [done | by apply sequential_keyed | |].
    + apply sequential_absent; [done | lia].
    + apply matches_insert_id.
Qed.

(** X11. A route changes no store other than the one it writes to: the
    routes that only read (health check, the list and get routes) change
    none, and a create, update or delete changes at most its own. *)
Theorem handle_touches_only_own_store (rq : request) g (k : kind) :
  writes rq ≠ Some k → store k (handle rq g).2 = store k g.
Proof.
  intros Hw. destruct g as [u p o].
  destruct rq as [|[|id|user|id user|id]| |id|product| |order|id];
    destruct k; try (by destruct Hw);
    unfold handle, serve, health_check, list_users, get_user, create_user,
      update_user, delete_user, list_products, get_product, create_product,
      list_orders, create_order, get_order;
    cbn [store users_db products_db orders_db];
    try done;
    destruct u as [|du], p as [|dp], o as [|do]; try done;
    match goal with
    | |- context [scan 0 ?d id] =>
        destruct (scan 0 d id) as [[[i old]|]|?]; try done
    end;
    cbv zeta; by destruct (<[i := _]> du !! i).
Qed.
End Reachable.

(** * The users store without deletes *)

Section NoDelete.
Implicit Types (db : list record) (g : globals).

(** X5. As long as no delete has been served since the module was loaded,
    the users carry the ids [1 .. len] in list order (so they are
    pairwise distinct), and [create_user] followed by [get_user] with the
    id of the returned record returns that record. *)
Theorem users_without_delete (rqs : list user_request) (user : User) :
  Forall (λ rq, is_delete rq = false) rqs →
  let g := (serve_all rqs module_init).2 in
  ∃ db : list record,
    users_db g = PyList db ∧ sequential db ∧ NoDup (stored_ids db) ∧
    ∃ (r : record) (id : Z) (g1 : globals),
      create_user user g = (Return r, g1) ∧
      r !! "id" = Some (VInt id) ∧
      get_user id g1 = (Return r, g1).
Proof.
  intros Hrqs. cbv zeta.
  destruct (serve_all_keeps_sequential rqs module_init [] Hrqs eq_refl)
    as (db & Hg & Hseq); [done|].
  exists db. split_and!; [done | done | by apply sequential_NoDup |].
  unfold create_user. rewrite Hg. do 3 eexists.
  split_and!; [reflexivity | apply lookup_insert_eq |].
  unfold get_user, set_users_db; cbn [users_db].
  rewrite scan_snoc_fresh; [done | by apply sequential_keyed | |].
  - apply sequential_absent; [done | lia].
  - apply matches_insert_id.
Qed.
End NoDelete.

(** * The two notions of equality agree on ids *)

Lemma py_eq_VInt (v : value) (n : Z) : py_eq v (VInt n) = py_eq_int v n.
Proof.
  destruct v as [|b|z|f|s|l]; try done.
  - unfold py_eq, py_eq_int, dyadic. cbn. by rewrite Z.mul_1_r.
  - unfold py_eq, py_eq_int, dyadic. cbn. by rewrite Z.mul_1_r.
  - destruct f as [s|s| |s mant e]; try done.
    + unfold py_eq, py_eq_int, dyadic. cbn. by rewrite Z.mul_1_r.
    + unfold py_eq, py_eq_int, dyadic.
      destruct (Z.leb_spec e 0), (Z.leb_spec 0 e).
      * assert (e = 0) as -> by lia. cbn. by rewrite Z.mul_1_r, Z.mul_1_r.
      * by rewrite Z.sub_0_l.
      * by rewrite Z.sub_0_r.
      * lia.
Qed.

(** * The tests of main_test.py *)

(** X16. Run against the module in any state, the two health-check tests
    pass, and each of the three [list_users] tests ends in the
    [TypeError] of its call [list_users(users_db)] before reaching its
    [assert]; no test changes the module state. *)
Theorem main_test_verdicts (g : globals) :
  map (λ test, test g) main_test
  = [ (Passed, g); (Passed, g);
      (Errored (TypeError
         "list_users() takes 0 positional arguments but 1 was given"), g);
      (Errored (TypeError
         "list_users() takes 0 positional arguments but 1 was given"), g);
      (Errored (TypeError
         "list_users() takes 0 positional arguments but 1 was given"), g) ].
Proof. vm_compute. reflexivity. Qed.

(** * Instances *)

Lemma writes_by_id_leave_other_ids_witness :
  1 ≠ 2 ∧
  (get_user 2 (update_user 1 carol two_users_state).2).1
    = (get_user 2 two_users_state).1 ∧
  (get_user 2 (delete_user 1 two_users_state).2).1
    = (get_user 2 two_users_state).1.
Proof.
  assert (H : 1 ≠ 2) by lia.
  exact (conj H (writes_by_id_leave_other_ids two_users_state 1 2 carol H)).
Defined.

Lemma create_leaves_other_ids_witness :
  2 ≠ Z.of_nat (length two_users) + 1 ∧
  (get_user 2 (create_user carol two_users_state).2).1
    = (get_user 2 two_users_state).1.
Proof.
  assert (H : 2 ≠ Z.of_nat (length two_users) + 1) by (vm_compute; lia).
  exact (conj H
           (create_leaves_other_ids two_users (PyList []) (PyList []) 2 carol
              H)).
Defined.

Lemma get_returns_first_stored_match_witness :
  get_user 2 mixed_state
    = (Return (<["id" := VInt 2]> (User_dict bob)), mixed_state) ∧
  get_product 2 mixed_state
    = (Return (<["id" := VInt 2]> (Product_dict gadget)), mixed_state) ∧
  get_order 1 mixed_state
    = (Return (<["id" := VInt 1]> (Order_dict basket)), mixed_state) ∧
  (mixed_state = mixed_state ∧
   first_match 2 (records_of (users_db mixed_state))
     (<["id" := VInt 2]> (User_dict bob))) ∧
  (mixed_state = mixed_state ∧
   first_match 2 (records_of (products_db mixed_state))
     (<["id" := VInt 2]> (Product_dict gadget))) ∧
  (mixed_state = mixed_state ∧
   first_match 1 (records_of (orders_db mixed_state))
     (<["id" := VInt 1]> (Order_dict basket))).
Proof.
  assert (Hu : get_user 2 mixed_state
    = (Return (<["id" := VInt 2]> (User_dict bob)), mixed_state))
    by (vm_compute; reflexivity).
  assert (Hp : get_product 2 mixed_state
    = (Return (<["id" := VInt 2]> (Product_dict gadget)), mixed_state))
    by (vm_compute; reflexivity).
  assert (Ho : get_order 1 mixed_state
    = (Return (<["id" := VInt 1]> (Order_dict basket)), mixed_state))
    by (vm_compute; reflexivity).
  refine (conj Hu (conj Hp (conj Ho (conj _ (conj _ _))))).
  - exact (proj1 (get_returns_first_stored_match mixed_state 2 _ _) Hu).
  - exact (proj1 (proj2 (get_returns_first_stored_match mixed_state 2 _ _))
             Hp).
  - exact (proj2 (proj2 (get_returns_first_stored_match mixed_state 1 _ _))
             Ho).
Defined.

Lemma get_product_order_not_found_iff_absent_witness :
  keyed two_users ∧
  (not_found (get_product 3 (mkGlobals (PyList []) (PyList two_users)
                               (PyList [])))
   ↔ absent 3 two_users) ∧
  (not_found (get_order 3 (mkGlobals (PyList []) (PyList [])
                             (PyList two_users)))
   ↔ absent 3 two_users).
Proof.
  assert (Hk : keyed two_users) by (repeat constructor; vm_compute; eauto).
  split; [exact Hk|].
  exact (get_product_order_not_found_iff_absent two_users (PyList [])
           (PyList []) 3 Hk).
Defined.

Lemma delete_user_effect_witness :
  keyed two_users ∧ present 1 two_users ∧ occurs_once 1 two_users ∧
  get_user 1 (delete_user 1 two_users_state).2
  = (Raise (HTTPException 404 "User not found"),
     (delete_user 1 two_users_state).2).
Proof.
  assert (Hk : keyed two_users) by (repeat constructor; vm_compute; eauto).
  assert (Hp : present 1 two_users)
    by (apply Exists_cons_hd; vm_compute; reflexivity).
  assert (Ho : occurs_once 1 two_users).
  { assert (Hfst : ∀ (i : nat) (r : record),
              two_users !! i = Some r → matches 1 r = true → i = 0%nat).
    { intros [|[|i]] r Hr Hm; [reflexivity | | discriminate Hr].
      injection Hr as <-. vm_compute in Hm. discriminate Hm. }
    intros i j r r' Hr Hr' Hm Hm'.
    rewrite (Hfst i r Hr Hm), (Hfst j r' Hr' Hm'). reflexivity. }
  refine (conj Hk (conj Hp (conj Ho _))).
  destruct (delete_user_effect two_users (PyList []) (PyList []) 1 Hk Hp)
    as (i & old & _ & _ & _ & Hdel & _ & Hget).
  change (mkGlobals (PyList two_users) (PyList []) (PyList []))
    with two_users_state in Hdel.
  rewrite Hdel. exact (Hget Ho).
Defined.

Lemma handle_touches_only_own_store_witness :
  writes (CreateProduct widget) ≠ Some KUser ∧
  store KUser (handle (CreateProduct widget) two_users_state).2
  = store KUser two_users_state.
Proof.
  assert (H : writes (CreateProduct widget) ≠ Some KUser) by discriminate.
  exact (conj H
           (handle_touches_only_own_store (CreateProduct widget)
              two_users_state KUser H)).
Defined.

Lemma create_then_get_when_fresh_witness :
  keyed two_users ∧ absent (Z.of_nat (length two_users) + 1) two_users ∧
  ∃ r : record,
    (create_user carol two_users_state).1 = Return r ∧
    get_user (Z.of_nat (length two_users) + 1)
      (create_user carol two_users_state).2
    = (Return r, (create_user carol two_users_state).2).
Proof.
  assert (Hk : keyed two_users) by (repeat constructor; vm_compute; eauto).
  assert (Hno : absent (Z.of_nat (length two_users) + 1) two_users)
    by (repeat constructor; vm_compute; reflexivity).
  refine (conj Hk (conj Hno _)).
  exact (create_then_get_when_fresh two_users (PyList []) (PyList []) carol
           Hk Hno).
Defined.

Lemma users_without_delete_witness :
  Forall (λ rq, is_delete rq = false)
    [CreateUser alice; UpdateUser 1 bob; GetUser 4] ∧
  ∃ db : list record,
    users_db
      (serve_all [CreateUser alice; UpdateUser 1 bob; GetUser 4]
         module_init).2 = PyList db ∧
    sequential db ∧ NoDup (stored_ids db) ∧
    ∃ (r : record) (id : Z) (g1 : globals),
      create_user carol
        (serve_all [CreateUser alice; UpdateUser 1 bob; GetUser 4]
           module_init).2 = (Return r, g1) ∧
      r !! "id" = Some (VInt id) ∧
      get_user id g1 = (Return r, g1).
Proof.
  assert (H : Forall (λ rq, is_delete rq = false)
                [CreateUser alice; UpdateUser 1 bob; GetUser 4])
    by (repeat constructor).
  exact (conj H
           (users_without_delete
              [CreateUser alice; UpdateUser 1 bob; GetUser 4] carol H)).
Defined.
